(** * black-widow: the sqlmap-api task manager ([sqlmaptask.py])

    A shallow embedding of the [SqlmapTask] class: the process-wide task
    registry [__TASKS], the request helper [_request] with its decoding
    of the [success] field, the admin operations [task_list] and
    [task_flush], and the task operations [task_new], [task_delete] and
    the option and scan requests.

    Python objects are untyped, so the embedding works over a type of
    Python values; every implicit failure of the interpreter that the
    code can meet (an unhashable dictionary key, a missing key, a
    missing method, [str + non-str]) is an explicit exception.  State
    changes made before an exception is raised persist, as in Python. *)

From Stdlib Require Import ZArith List String Bool.
From Stdlib Require Import Floats.SpecFloat.
Import ListNotations.

Local Open Scope string_scope.
Local Open Scope Z_scope.

#[local] Set Warnings "-register-all".

(** ** Python values *)

(** The values a decoded JSON body is made of ([None], [bool], [int],
    [float], [str], [list], [dict]).  A [dict] is kept as the list of its
    items in insertion order. *)
Inductive value : Type :=
| VNone
| VBool (b : bool)
| VInt (z : Z)
| VFloat (f : spec_float)
| VStr (s : string)
| VList (l : list value)
| VDict (d : list (value * value)).

(** Python's [bool(v)]. *)
Definition truthy (v : value) : bool :=
  match v with
  | VNone => false
  | VBool b => b
  | VInt z => negb (z =? 0)
  | VFloat (S754_zero _) => false
  | VFloat _ => true
  | VStr s => negb (String.eqb s "")
  | VList l => match l with [] => false | _ :: _ => true end
  | VDict d => match d with [] => false | _ :: _ => true end
  end.

(** [v is None]. *)
Definition is_None (v : value) : bool :=
  match v with VNone => true | _ => false end.

(** [hash(v)] succeeds: lists and dictionaries are unhashable. *)
Definition hashable (v : value) : bool :=
  match v with
  | VList _ | VDict _ => false
  | _ => true
  end.

(** *** Equality of dictionary keys

    A dictionary finds a key [b] at a stored key [a] when [a is b or
    a == b].  Numbers compare by value across [bool], [int] and [float]
    ([True == 1 == 1.0]); a NaN equals nothing but is found again through
    the object itself.  Values carry no identity here, so a NaN key
    stands for that one object. *)
Inductive number : Type :=
| NInt (z : Z)
| NFloat (f : spec_float).

Definition numeric (v : value) : option number :=
  match v with
  | VBool b => Some (NInt (Z.b2z b))
  | VInt z => Some (NInt z)
  | VFloat f => Some (NFloat f)
  | _ => None
  end.

Definition signed (s : bool) (m : positive) : Z :=
  if s then Z.neg m else Z.pos m.

(** The float [f] is exactly the integer [z]. *)
Definition float_eq_int (f : spec_float) (z : Z) : bool :=
  match f with
  | S754_zero _ => z =? 0
  | S754_finite s m e =>
      if 0 <=? e then z =? signed s m * 2 ^ e
      else z * 2 ^ (- e) =? signed s m
  | _ => false
  end.

(** IEEE equality of two floats, by value. *)
Definition float_eqb (f g : spec_float) : bool :=
  match f, g with
  | S754_zero _, S754_zero _ => true
  | S754_infinity s, S754_infinity t => Bool.eqb s t
  | S754_finite s m e, S754_finite t n d =>
      let lo := Z.min e d in
      signed s m * 2 ^ (e - lo) =? signed t n * 2 ^ (d - lo)
  | _, _ => false
  end.

Definition number_eqb (x y : number) : bool :=
  match x, y with
  | NInt a, NInt b => a =? b
  | NInt a, NFloat g => float_eq_int g a
  | NFloat f, NInt b => float_eq_int f b
  | NFloat f, NFloat g => float_eqb f g
  end.

Definition key_eqb (a b : value) : bool :=
  match a, b with
  | VNone, VNone => true
  | VStr s, VStr t => String.eqb s t
  | VFloat S754_nan, VFloat S754_nan => true
  | _, _ =>
      match numeric a, numeric b with
      | Some x, Some y => number_eqb x y
      | _, _ => false
      end
  end.

(** ** Python dictionaries

    The items in insertion order; the keys stored are hashable and
    pairwise different under [key_eqb]. *)
Module PyDict.

Definition t (V : Type) : Type := list (value * V).

Section Ops.
Context {V : Type}.

(** The item stored at [k], if any. *)
Fixpoint lookup (k : value) (d : t V) : option V :=
  match d with
  | [] => None
  | (k', v) :: rest => if key_eqb k' k then Some v else lookup k rest
  end.

(** [d[k] = v]: an existing key keeps its place (and the key object
    first stored), a new key goes last. *)
Fixpoint store (k : value) (v : V) (d : t V) : t V :=
  match d with
  | [] => [(k, v)]
  | (k', v') :: rest =>
      if key_eqb k' k then (k', v) :: rest
      else (k', v') :: store k v rest
  end.

(** The dictionary without the item at [k]. *)
Fixpoint remove (k : value) (d : t V) : t V :=
  match d with
  | [] => []
  | (k', v') :: rest =>
      if key_eqb k' k then rest else (k', v') :: remove k rest
  end.

(** [d.keys()], in insertion order. *)
Definition keys (d : t V) : list value := map fst d.

End Ops.

End PyDict.

(** [k in ks] for a key view [ks]. *)
Definition key_in (k : value) (ks : list value) : bool :=
  existsb (fun k' => key_eqb k' k) ks.

(** ** Exceptions and the state of the process *)

Inductive exn : Type :=
| RequestException (msg : string)   (* requests.RequestException *)
| KeyError (key : value)
| TypeError (what : string)
| AttributeError (attr : string)
| Foreign (name : string).          (* raised by a collaborator *)

(** Modelled from the spec: [HttpRequest.Type], of the module
    [black_widow.app.managers.request], which is not part of these
    sources; the methods are those the docstrings of [sqlmaptask.py] and
    section 4.1 of the specification list (get, post, put, patch,
    delete). *)
Inductive HttpRequest_Type : Type := GET | POST | PUT | PATCH | DELETE.

(** One call of [HttpRequest.request(url, request_type, json=json)]. *)
Record Request : Type := mkRequest {
  url : string;
  request_type : HttpRequest_Type;
  json : option value
}.

(** The fields of a [SqlmapTask] object. *)
Record SqlmapTask : Type := mkTask {
  id : value;
  api_url : value;
  target_url : value
}.

(** A call of [Log.info] or [Log.error].  The text that [_request]
    builds with [str(r_data)] is kept as its prefix and the value. *)
Inductive LogRecord : Type :=
| Log_info (prefix : string) (data : value)
| Log_error (msg : string).

Definition Registry : Type := PyDict.t (PyDict.t SqlmapTask).

(** The class attribute [SqlmapTask.__TASKS], the requests sent so far
    (oldest first) and the log. *)
Record World : Type := mkWorld {
  __TASKS : Registry;
  sent : list Request;
  journal : list LogRecord
}.

Inductive outcome (A : Type) : Type :=
| Return (a : A)
| Raise (e : exn).
Arguments Return {A} a.
Arguments Raise {A} e.

(** A Python computation: it ends in a value or an exception, and
    leaves a new state either way. *)
Definition Py (A : Type) : Type := World -> outcome A * World.

Definition ret {A} (a : A) : Py A := fun w => (Return a, w).

Definition raise {A} (e : exn) : Py A := fun w => (Raise e, w).

Definition bind {A B} (m : Py A) (k : A -> Py B) : Py B :=
  fun w =>
    match m w with
    | (Return a, w') => k a w'
    | (Raise e, w') => (Raise e, w')
    end.

Definition lift {A} (o : outcome A) : Py A := fun w => (o, w).

Notation "x <- m ;; k" := (bind m (fun x => k))
  (at level 61, m at next level, right associativity).
Notation "m ;;; k" := (bind m (fun _ => k))
  (at level 61, right associativity).

(** The result and the final state of a run. *)
Definition result {A} (r : outcome A * World) : outcome A := fst r.
Definition final {A} (r : outcome A * World) : World := snd r.

(** *** Primitive operations *)

(** The double quote character, for the messages that hold one. *)
Definition dquote : string :=
  String (Ascii.Ascii false true false false false true false false) EmptyString.

(** The message of [a + b] for a [str] [b] and an [a] that is not a
    [str]: a list refuses to be concatenated with anything but a list,
    the other types have no [+] with a [str]. *)
Definition add_str_error (a : value) : string :=
  match a with
  | VList _ =>
      "can only concatenate list (not " ++ dquote ++ "str" ++ dquote ++ ") to list"
  | _ => "unsupported operand type(s) for +"
  end.

(** [a + b] where [b] is a [str]. *)
Definition add_str (a : value) (b : string) : outcome string :=
  match a with
  | VStr s => Return (s ++ b)
  | _ => Raise (TypeError (add_str_error a))
  end.

(** [a + b] where [a] is a [str]. *)
Definition str_add (a : string) (b : value) : outcome string :=
  match b with
  | VStr s => Return (a ++ s)
  | _ => Raise (TypeError "can only concatenate str to str")
  end.

(** [v.get(key)] *)
Definition method_get (v : value) (key : value) : outcome value :=
  match v with
  | VDict d =>
      if hashable key then
        Return (match PyDict.lookup key d with Some x => x | None => VNone end)
      else Raise (TypeError "unhashable type")
  | _ => Raise (AttributeError "get")
  end.

(** [v[key]] for a [str] key. *)
Definition getitem (v : value) (key : string) : outcome value :=
  match v with
  | VDict d =>
      match PyDict.lookup (VStr key) d with
      | Some x => Return x
      | None => Raise (KeyError (VStr key))
      end
  | _ => Raise (TypeError "indices must be integers, or not subscriptable")
  end.

(** [v.keys()] *)
Definition method_keys (v : value) : outcome (list value) :=
  match v with
  | VDict d => Return (PyDict.keys d)
  | _ => Raise (AttributeError "keys")
  end.

(** [k in ks] *)
Definition contains (ks : list value) (k : value) : outcome bool :=
  if hashable k then Return (key_in k ks)
  else Raise (TypeError "unhashable type").

(** [SqlmapTask.__TASKS.get(k)] *)
Definition TASKS_get (k : value) : Py (option (PyDict.t SqlmapTask)) :=
  fun w =>
    if hashable k then (Return (PyDict.lookup k (__TASKS w)), w)
    else (Raise (TypeError "unhashable type"), w).

Definition set_TASKS (r : Registry) (w : World) : World :=
  mkWorld r (sent w) (journal w).

(** [SqlmapTask.__TASKS[k] = d] *)
Definition TASKS_setitem (k : value) (d : PyDict.t SqlmapTask) : Py unit :=
  fun w =>
    if hashable k then (Return tt, set_TASKS (PyDict.store k d (__TASKS w)) w)
    else (Raise (TypeError "unhashable type"), w).

(** [SqlmapTask.__TASKS[k][task_id] = task]: the inner dictionary is
    the object stored at [k], so the change shows in the registry. *)
Definition TASKS_setitem2 (k task_id : value) (task : SqlmapTask) : Py unit :=
  fun w =>
    if hashable k then
      match PyDict.lookup k (__TASKS w) with
      | None => (Raise (KeyError k), w)
      | Some inner =>
          if hashable task_id then
            (Return tt,
             set_TASKS (PyDict.store k (PyDict.store task_id task inner) (__TASKS w)) w)
          else (Raise (TypeError "unhashable type"), w)
      end
    else (Raise (TypeError "unhashable type"), w).

(** [SqlmapTask.__TASKS.pop(k)] *)
Definition TASKS_pop (k : value) : Py (PyDict.t SqlmapTask) :=
  fun w =>
    if hashable k then
      match PyDict.lookup k (__TASKS w) with
      | Some d => (Return d, set_TASKS (PyDict.remove k (__TASKS w)) w)
      | None => (Raise (KeyError k), w)
      end
    else (Raise (TypeError "unhashable type"), w).

Definition Log_write (r : LogRecord) : Py unit :=
  fun w => (Return tt, mkWorld (__TASKS w) (sent w) (journal w ++ [r])).

(** [for x in xs: body(x)] *)
Fixpoint for_each {A} (xs : list A) (body : A -> Py unit) : Py unit :=
  match xs with
  | [] => ret tt
  | x :: rest => body x ;;; for_each rest body
  end.

(** ** The class [SqlmapTask] *)

Section Model.

(** The collaborators, which are not part of these sources:
    [HttpRequest.request(url, request_type, json=json).text], which may
    answer differently as requests go by (it sees the calls made before),
    and [JsonSerializer.load_json]. *)
Variable HttpRequest_request : list Request -> Request -> outcome string.
Variable load_json : string -> outcome value.

(** The call of the transport, recorded in [sent]. *)
Definition http (rq : Request) : Py string :=
  fun w =>
    (HttpRequest_request (sent w) rq,
     mkWorld (__TASKS w) (sent w ++ [rq]) (journal w)).

(** [SqlmapTask._request(url, request_type, json)] *)
Definition _request (url : string) (request_type : HttpRequest_Type)
    (json : option value) : Py value :=
  text <- http (mkRequest url request_type json) ;;
  r_data <- lift (load_json text) ;;
  Log_write (Log_info ("Response data of " ++ url ++ ": ") r_data) ;;;
  success <- lift (method_get r_data (VStr "success")) ;;
  if is_None success then
    (* The response has not the status management *)
    ret r_data
  else if negb (truthy success) then
    Log_write (Log_error ("Response data of " ++ url ++ " has { success: False }")) ;;;
    raise (RequestException ("Request to " ++ url ++ " failed"))
  else ret r_data.

(** [SqlmapTask(task_id, api_url, target_url)]: [__init__] registers the
    new object. *)
Definition __init__ (task_id api_url target_url : value) : Py SqlmapTask :=
  let self := mkTask task_id api_url target_url in
  known <- TASKS_get api_url ;;
  match known with
  | None => TASKS_setitem api_url []
  | Some _ => ret tt
  end ;;;
  TASKS_setitem2 api_url task_id self ;;;
  ret self.

(** [SqlmapTask.task_list(api_url)] *)
Definition task_list (api_url : value) : Py Registry :=
  url <- lift (add_str api_url "/admin/list") ;;
  r_data <- _request url GET None ;;
  task_dict <- TASKS_get api_url ;;
  tasks <- lift (getitem r_data "tasks") ;;
  active_task_keys <- lift (method_keys tasks) ;;
  match task_dict with
  | None => ret []
  | Some task_dict =>
      for_each task_dict (fun item =>
        let task_id := fst item in
        present <- lift (contains active_task_keys task_id) ;;
        if negb present then (TASKS_pop task_id ;;; ret tt) else ret tt) ;;;
      fun w => (Return (__TASKS w), w)
  end.

(** [SqlmapTask.task_flush(api_url)]: the body has no [return]. *)
Definition task_flush (api_url : value) : Py value :=
  url <- lift (add_str api_url "/admin/flush") ;;
  _request url GET None ;;;
  ret VNone.

(** [SqlmapTask.task_new(api_url, target_url)] *)
Definition task_new (api_url target_url : value) : Py SqlmapTask :=
  url <- lift (add_str api_url "/task/new") ;;
  r_data <- _request url GET None ;;
  task_id <- lift (getitem r_data "taskid") ;;
  __init__ task_id api_url target_url.

(** [self.__request(path, request_type, json)] *)
Definition __request (self : SqlmapTask) (path : string)
    (request_type : HttpRequest_Type) (json : option value) : Py value :=
  url <- lift (add_str (api_url self) path) ;;
  _request url request_type json.

(** [self.__option_request(action, request_type, json)] *)
Definition __option_request (self : SqlmapTask) (action : string)
    (request_type : HttpRequest_Type) (json : option value) : Py value :=
  prefix <- lift (str_add "/option/" (id self)) ;;
  __request self ((prefix ++ "/") ++ action) request_type json.

(** [self.__task_request(action, request_type, json)] *)
Definition __task_request (self : SqlmapTask) (action : string)
    (request_type : HttpRequest_Type) (json : option value) : Py value :=
  prefix <- lift (str_add "/task/" (id self)) ;;
  __request self ((prefix ++ "/") ++ action) request_type json.

(** [self.__scan_request(action, request_type, json)] *)
Definition __scan_request (self : SqlmapTask) (action : string)
    (request_type : HttpRequest_Type) (json : option value) : Py value :=
  prefix <- lift (str_add "/scan/" (id self)) ;;
  __request self ((prefix ++ "/") ++ action) request_type json.

Definition task_delete (self : SqlmapTask) : Py value :=
  __task_request self "delete" GET None.

Definition option_list (self : SqlmapTask) : Py value :=
  __option_request self "list" GET None.

Definition option_get (self : SqlmapTask) (options : value) : Py value :=
  __option_request self "get" POST (Some options).

Definition option_set (self : SqlmapTask) (options : value) : Py value :=
  __option_request self "set" POST (Some options).

Definition scan_start (self : SqlmapTask) : Py value :=
  __scan_request self "start" POST (Some (VDict [])).

Definition scan_stop (self : SqlmapTask) : Py value :=
  __scan_request self "stop" GET None.

Definition scan_kill (self : SqlmapTask) : Py value :=
  __scan_request self "kill" GET None.

Definition scan_status (self : SqlmapTask) : Py value :=
  __scan_request self "status" GET None.

Definition scan_data (self : SqlmapTask) : Py value :=
  __scan_request self "data" GET None.

Definition scan_log (self : SqlmapTask) : Py value :=
  __scan_request self "log" GET None.

End Model.

(** ** Reading the model *)

(** The handle registered at [(server, task_id)]. *)
Definition registered (r : Registry) (server task_id : value) : option SqlmapTask :=
  match PyDict.lookup server r with
  | Some inner => PyDict.lookup task_id inner
  | None => None
  end.

(** [_request] lets the body through: [success] is absent, [None] or
    truthy. *)
Definition passes (d : list (value * value)) : bool :=
  match PyDict.lookup (VStr "success") d with
  | Some s => is_None s || truthy s
  | None => true
  end.

(** The text of the [RequestException] that [_request] raises. *)
Definition failure_of (url : string) : exn :=
  RequestException ("Request to " ++ url ++ " failed").

(** The state after a request whose body was decoded: the call is in
    [sent] and the body in the log. *)
Definition answered (w : World) (rq : Request) (r_data : value) : World :=
  mkWorld (__TASKS w) (sent w ++ [rq])
          (journal w ++ [Log_info ("Response data of " ++ url rq ++ ": ") r_data]).

(** ** Test doubles *)

(** A transport that answers every call with [text], and a decoder that
    reads every text as [body]. *)
Definition always (text : string) : list Request -> Request -> outcome string :=
  fun _ _ => Return text.

Definition reading (body : value) : string -> outcome value :=
  fun _ => Return body.

(** A transport that serves fixed pages by URL and refuses the rest. *)
Definition serving (pages : list (string * string))
  : list Request -> Request -> outcome string :=
  fun _ rq =>
    match find (fun p => String.eqb (fst p) (url rq)) pages with
    | Some p => Return (snd p)
    | None => Raise (Foreign "ConnectionError")
    end.

(** A decoder that knows the texts of a table. *)
Definition decoding (table : list (string * value)) : string -> outcome value :=
  fun text =>
    match find (fun p => String.eqb (fst p) text) table with
    | Some p => Return (snd p)
    | None => Raise (Foreign "JSONDecodeError")
    end.

Definition server : string := "http://127.0.0.1:8775".

Definition empty_world : World := mkWorld [] [] [].

(** The objects of the examples ([{'success': True}] and so on stand
    for the JSON texts). *)
Definition body_new : value := VDict [(VStr "taskid", VStr "abc123")].
Definition body_ok : value := VDict [(VStr "success", VBool true)].
Definition body_refused : value :=
  VDict [(VStr "success", VBool false); (VStr "message", VStr "Invalid task ID")].
Definition body_zero : value := VDict [(VStr "success", VInt 0)].
Definition body_list : value :=
  VDict [(VStr "success", VBool true);
         (VStr "tasks", VDict [(VStr "abc123", VStr "not running")])].

Definition codec : string -> outcome value :=
  decoding [("{'taskid': 'abc123'}", body_new);
            ("{'success': true}", body_ok);
            ("{'success': false, 'message': 'Invalid task ID'}", body_refused);
            ("{'success': 0}", body_zero);
            ("{'success': true, 'tasks': {'abc123': 'not running'}}", body_list)].

(** A server that creates [abc123], lists it, and accepts a flush and
    the deletion of [abc123]. *)
Definition healthy : list Request -> Request -> outcome string :=
  serving [(server ++ "/task/new", "{'taskid': 'abc123'}");
           (server ++ "/admin/list",
            "{'success': true, 'tasks': {'abc123': 'not running'}}");
           (server ++ "/admin/flush", "{'success': true}");
           (server ++ "/task/abc123/delete", "{'success': true}")].

(** A server that refuses everything, with [false] or with [0]. *)
Definition refusing : list Request -> Request -> outcome string :=
  serving [(server ++ "/task/new", "{'success': false, 'message': 'Invalid task ID'}");
           (server ++ "/admin/list", "{'success': 0}")].

(** A server whose answers carry [success] and nothing else. *)
Definition terse : list Request -> Request -> outcome string :=
  serving [(server ++ "/task/new", "{'success': true}");
           (server ++ "/admin/list", "{'success': true}")].

Definition task_abc : SqlmapTask :=
  mkTask (VStr "abc123") (VStr server) (VStr "http://target/?id=1").
Definition task_zzz : SqlmapTask :=
  mkTask (VStr "zzz999") (VStr server) (VStr "http://target/?id=2").

(** The registry after [abc123] and the stale [zzz999] were created
    under [server]. *)
Definition stale_world : World :=
  mkWorld [(VStr server, [(VStr "abc123", task_abc); (VStr "zzz999", task_zzz)])]
          [] [].

(** The same, with a second server whose URL is the text [zzz999]. *)
Definition colliding_world : World :=
  mkWorld [(VStr server, [(VStr "abc123", task_abc); (VStr "zzz999", task_zzz)]);
           (VStr "zzz999", [(VStr "k1", mkTask (VStr "k1") (VStr "zzz999") VNone)])]
          [] [].

(** ** Dictionaries: finding what was stored *)

Lemma append_assoc (s t u : string) : (s ++ t) ++ u = s ++ (t ++ u).
Proof.
  induction s as [ | c s IH ]; cbn; [ reflexivity | now rewrite IH ].
Qed.

Lemma key_eqb_refl (k : value) : hashable k = true -> key_eqb k k = true.
Proof.
  destruct k as [ | b | z | f | s | l | d ]; cbn; intros H;
    try discriminate; try reflexivity.
  - apply Z.eqb_refl.
  - apply Z.eqb_refl.
  - destruct f as [ sg | sg | | sg m e ]; cbn; try reflexivity.
    + apply Bool.eqb_reflx.
    + apply Z.eqb_refl.
  - apply String.eqb_refl.
Qed.

Lemma lookup_store_same {V} (k : value) (v : V) (d : PyDict.t V) :
  key_eqb k k = true -> PyDict.lookup k (PyDict.store k v d) = Some v.
Proof.
  intros Hk. induction d as [ | [k' v'] rest IH ]; cbn.
  - now rewrite Hk.
  - destruct (key_eqb k' k) eqn:E; cbn; rewrite E; [ reflexivity | exact IH ].
Qed.

Lemma registered_store (r : Registry) (a k : value) (t : SqlmapTask)
    (inner : PyDict.t SqlmapTask) :
  hashable a = true -> hashable k = true ->
  registered (PyDict.store a (PyDict.store k t inner) r) a k = Some t.
Proof.
  intros Ha Hk. unfold registered.
  rewrite lookup_store_same by now apply key_eqb_refl.
  apply lookup_store_same. now apply key_eqb_refl.
Qed.

(** ** The request helper *)

Section Properties.

Variable HttpRequest_request : list Request -> Request -> outcome string.
Variable load_json : string -> outcome value.

Local Notation "'send'" := (_request HttpRequest_request load_json).

(** What [_request] does with a decoded mapping. *)
Lemma request_decoded url rt js w text d :
  HttpRequest_request (sent w) (mkRequest url rt js) = Return text ->
  load_json text = Return (VDict d) ->
  send url rt js w =
    let w1 := answered w (mkRequest url rt js) (VDict d) in
    if passes d then (Return (VDict d), w1)
    else (Raise (failure_of url),
          mkWorld (__TASKS w1) (sent w1)
            (journal w1 ++
               [Log_error ("Response data of " ++ url ++ " has { success: False }")])).
Proof.
  intros HT HL. unfold _request, bind, http, lift, Log_write, passes, answered.
  rewrite HT, HL. cbn.
  destruct (PyDict.lookup (VStr "success") d) as [ s | ]; cbn; [ | reflexivity ].
  destruct (is_None s); cbn; [ reflexivity | ].
  destruct (truthy s); reflexivity.
Qed.

(** Whatever the outcome, [_request] calls the transport once and
    leaves the registry alone. *)
Lemma request_frame url rt js w :
  __TASKS (final (send url rt js w)) = __TASKS w /\
  sent (final (send url rt js w)) = (sent w ++ [mkRequest url rt js])%list.
Proof.
  unfold _request, bind, http, lift, Log_write, final.
  destruct (HttpRequest_request (sent w) (mkRequest url rt js)) as [ text | e ];
    cbn; [ | now split ].
  destruct (load_json text) as [ r_data | e ]; cbn; [ | now split ].
  destruct (method_get r_data (VStr "success")) as [ s | e ]; cbn; [ | now split ].
  destruct (is_None s); cbn; [ now split | ].
  destruct (truthy s); cbn; now split.
Qed.

(** [_request] returns nothing but the decoded body. *)
Lemma request_returns_body url rt js w v :
  result (send url rt js w) = Return v ->
  exists text,
    HttpRequest_request (sent w) (mkRequest url rt js) = Return text /\
    load_json text = Return v.
Proof.
  unfold _request, bind, http, lift, Log_write, result.
  destruct (HttpRequest_request (sent w) (mkRequest url rt js)) as [ text | e ];
    cbn; [ | discriminate ].
  destruct (load_json text) as [ r_data | e ] eqn:HL; cbn; [ | discriminate ].
  destruct (method_get r_data (VStr "success")) as [ s | e ]; cbn; [ | discriminate ].
  destruct (is_None s); cbn.
  - intros [= <-]. now exists text.
  - destruct (truthy s); cbn; [ | discriminate ].
    intros [= <-]. now exists text.
Qed.

(** C2: a decoded body whose [success] field is [False] makes
    [_request] raise the [RequestException] that names the URL, so no
    value is returned; and when the transport and the decoder did their
    part, [_request] raises a [RequestException] for no other reason
    than a [success] field that is present, not [None] and falsy. *)
Theorem request_rejected_raises url rt js w text body :
  HttpRequest_request (sent w) (mkRequest url rt js) = Return text ->
  load_json text = Return body ->
  (forall d,
      body = VDict d ->
      PyDict.lookup (VStr "success") d = Some (VBool false) ->
      result (send url rt js w)
        = Raise (RequestException ("Request to " ++ url ++ " failed")) /\
      forall v, result (send url rt js w) <> Return v) /\
  (forall msg,
      result (send url rt js w) = Raise (RequestException msg) ->
      msg = "Request to " ++ url ++ " failed" /\
      exists d s,
        body = VDict d /\
        PyDict.lookup (VStr "success") d = Some s /\
        is_None s = false /\ truthy s = false).
Proof.
  intros HT HL. split.
  - intros d -> Hs.
    rewrite (request_decoded _ _ _ _ _ _ HT HL). unfold passes. rewrite Hs. cbn.
    split; [ reflexivity | discriminate ].
  - intros msg. destruct body as [ | b | z | f | s | l | d ];
      try (unfold _request, bind, http, lift, Log_write, result;
           rewrite HT, HL; cbn; discriminate).
    rewrite (request_decoded _ _ _ _ _ _ HT HL). unfold passes.
    destruct (PyDict.lookup (VStr "success") d) as [ s | ] eqn:Hs; cbn;
      [ | discriminate ].
    destruct (is_None s) eqn:Hn; cbn; [ discriminate | ].
    destruct (truthy s) eqn:Ht; cbn; [ discriminate | ].
    unfold failure_of. intros [= <-]. split; [ reflexivity | ].
    exists d, s. repeat split; assumption.
Qed.

(** C3: a decoded body without a [success] key, or whose [success] is
    [True] or any other truthy value, is returned unchanged. *)
Theorem request_passes_body url rt js w text d :
  HttpRequest_request (sent w) (mkRequest url rt js) = Return text ->
  load_json text = Return (VDict d) ->
  (PyDict.lookup (VStr "success") d = None \/
   exists s, PyDict.lookup (VStr "success") d = Some s /\ truthy s = true) ->
  result (send url rt js w) = Return (VDict d).
Proof.
  intros HT HL Hs. rewrite (request_decoded _ _ _ _ _ _ HT HL). unfold passes.
  destruct Hs as [ -> | (s & -> & Ht) ]; cbn; [ reflexivity | ].
  rewrite Ht, orb_true_r. reflexivity.
Qed.

(** C9: the test is falsiness, not equality with [False]: a [success]
    field that is present, not [None] and falsy ([0], the empty string,
    the empty list, the empty mapping) raises the same
    [RequestException] as [False] does. *)
Theorem request_falsy_success_raises url rt js w text d s :
  HttpRequest_request (sent w) (mkRequest url rt js) = Return text ->
  load_json text = Return (VDict d) ->
  PyDict.lookup (VStr "success") d = Some s ->
  is_None s = false ->
  truthy s = false ->
  result (send url rt js w)
    = Raise (RequestException ("Request to " ++ url ++ " failed")).
Proof.
  intros HT HL Hs Hn Ht. rewrite (request_decoded _ _ _ _ _ _ HT HL).
  unfold passes. rewrite Hs, Hn, Ht. reflexivity.
Qed.

(** ** Creating a task *)

Local Notation "'new'" := (task_new HttpRequest_request load_json).

(** [__init__] with hashable arguments registers the object it builds. *)
Lemma init_registers task_id a target w :
  hashable a = true ->
  hashable task_id = true ->
  result (__init__ task_id a target w) = Return (mkTask task_id a target) /\
  registered (__TASKS (final (__init__ task_id a target w))) a task_id
    = Some (mkTask task_id a target).
Proof.
  intros Ha Hk. unfold __init__, bind, TASKS_get, TASKS_setitem, TASKS_setitem2, ret.
  rewrite Ha.
  destruct (PyDict.lookup a (__TASKS w)) as [ inner | ] eqn:Hin; cbn.
  - rewrite Hin, Hk. cbn. split; [ reflexivity | ].
    now apply registered_store.
  - rewrite lookup_store_same by now apply key_eqb_refl.
    rewrite Hk. cbn. split; [ reflexivity | ].
    now apply (registered_store _ a task_id _ []).
Qed.

(** C4: when the envelope of [/task/new] carries a [taskid],
    [task_new] returns the handle whose [id] is that value and whose
    server is the endpoint given, and the registry holds this handle at
    (endpoint, taskid) afterwards. *)
Theorem task_new_registers endpoint target w text d taskid :
  HttpRequest_request (sent w) (mkRequest (endpoint ++ "/task/new") GET None)
    = Return text ->
  load_json text = Return (VDict d) ->
  passes d = true ->
  PyDict.lookup (VStr "taskid") d = Some taskid ->
  hashable taskid = true ->
  exists handle,
    result (new (VStr endpoint) target w) = Return handle /\
    id handle = taskid /\
    api_url handle = VStr endpoint /\
    registered (__TASKS (final (new (VStr endpoint) target w))) (VStr endpoint) taskid
      = Some handle.
Proof.
  intros HT HL Hp Hid Hh. exists (mkTask taskid (VStr endpoint) target).
  assert (E : new (VStr endpoint) target w
              = __init__ taskid (VStr endpoint) target
                  (answered w (mkRequest (endpoint ++ "/task/new") GET None) (VDict d))).
  { unfold task_new, bind, lift, add_str.
    rewrite (request_decoded _ _ _ _ _ _ HT HL), Hp. cbn -[__init__].
    now rewrite Hid. }
  rewrite E.
  destruct (init_registers taskid (VStr endpoint) target
              (answered w (mkRequest (endpoint ++ "/task/new") GET None) (VDict d))
              eq_refl Hh) as [Hr Hreg].
  rewrite Hr. auto.
Qed.

(** C6: an envelope of [/task/new] that [_request] lets through but
    that has no [taskid] makes [task_new] raise [KeyError('taskid')];
    no handle is built and the registry stays as it was. *)
Theorem task_new_missing_taskid endpoint target w text d :
  HttpRequest_request (sent w) (mkRequest (endpoint ++ "/task/new") GET None)
    = Return text ->
  load_json text = Return (VDict d) ->
  passes d = true ->
  PyDict.lookup (VStr "taskid") d = None ->
  result (new (VStr endpoint) target w) = Raise (KeyError (VStr "taskid")) /\
  __TASKS (final (new (VStr endpoint) target w)) = __TASKS w.
Proof.
  intros HT HL Hp Hid. unfold task_new, bind, lift, add_str.
  rewrite (request_decoded _ _ _ _ _ _ HT HL), Hp. cbn. rewrite Hid. cbn.
  split; reflexivity.
Qed.

(** ** Listing the tasks *)

Local Notation "'list_tasks'" := (task_list HttpRequest_request load_json).

(** What every turn of a loop preserves, the loop preserves, also when
    a turn raises. *)
Lemma for_each_preserves {A} (R : World -> World -> Prop) (body : A -> Py unit) :
  (forall w, R w w) ->
  (forall w1 w2 w3, R w1 w2 -> R w2 w3 -> R w1 w3) ->
  (forall x w, R w (final (body x w))) ->
  forall xs w, R w (final (for_each xs body w)).
Proof.
  intros Hrefl Htrans Hbody xs. induction xs as [ | x rest IH ]; intros w; cbn.
  - apply Hrefl.
  - unfold bind, final in *. specialize (Hbody x w).
    destruct (body x w) as [[ u | e ] w1]; cbn in *.
    + apply Htrans with w1; [ assumption | apply IH ].
    + assumption.
Qed.

Lemma remove_In {V} (k : value) (d : PyDict.t V) (p : value * V) :
  In p (PyDict.remove k d) -> In p d.
Proof.
  induction d as [ | [k' v'] rest IH ]; cbn; [ tauto | ].
  destruct (key_eqb k' k); cbn; tauto.
Qed.

(** [__TASKS.pop] sends nothing and adds nothing. *)
Lemma pop_frame k w :
  sent (final (TASKS_pop k w)) = sent w /\
  forall p, In p (__TASKS (final (TASKS_pop k w))) -> In p (__TASKS w).
Proof.
  unfold TASKS_pop, final. destruct (hashable k); [ | now split ].
  destruct (PyDict.lookup k (__TASKS w)); cbn; [ | now split ].
  split; [ reflexivity | ]. intros p. apply remove_In.
Qed.

(** The body of the loop of [task_list], for the keys [ks] of the
    server's answer. *)
Lemma prune_frame (ks : list value) (item : value * SqlmapTask) w :
  let turn :=
    (present <- lift (contains ks (fst item)) ;;
     if negb present then (TASKS_pop (fst item) ;;; ret tt) else ret tt) in
  sent (final (turn w)) = sent w /\
  forall p, In p (__TASKS (final (turn w))) -> In p (__TASKS w).
Proof.
  cbv zeta. unfold bind, lift, contains, final.
  destruct (hashable (fst item)); cbn; [ | now split ].
  destruct (negb (key_in (fst item) ks)); cbn; [ | now split ].
  pose proof (pop_frame (fst item) w) as Hp. unfold final in Hp.
  destruct (TASKS_pop (fst item) w) as [[ x | e ] w3]; cbn in *; assumption.
Qed.

(** [task_list] calls the transport once, for [/admin/list], whatever
    comes of it. *)
Lemma task_list_sent endpoint w :
  sent (final (list_tasks (VStr endpoint) w))
    = (sent w ++ [mkRequest (endpoint ++ "/admin/list") GET None])%list.
Proof.
  unfold task_list, bind, lift, add_str, final.
  destruct (request_frame (endpoint ++ "/admin/list") GET None w) as [_ Hs].
  unfold final in Hs.
  destruct (send (endpoint ++ "/admin/list") GET None w) as [[ r_data | e ] w1];
    cbn in *; [ | assumption ].
  destruct (getitem r_data "tasks") as [ tasks | e ]; cbn; [ | assumption ].
  destruct (method_keys tasks) as [ ks | e ]; cbn; [ | assumption ].
  destruct (PyDict.lookup (VStr endpoint) (__TASKS w1)) as [ task_dict | ]; cbn;
    [ | assumption ].
  match goal with
  | |- context [ for_each task_dict ?body w1 ] =>
      assert (Hloop : sent (final (for_each task_dict body w1)) = sent w1)
  end.
  { apply (for_each_preserves (fun u v => sent v = sent u));
      [ reflexivity | intros; congruence | ].
    intros item w2. apply (prune_frame ks item w2). }
  unfold final in Hloop.
  destruct (for_each task_dict _ w1) as [[ u | e ] w2]; cbn in *; congruence.
Qed.

(** [task_list] takes whole entries out of the registry and nothing
    else: an entry found after the pass, a server with its tasks, was
    there before the pass with the same tasks. *)
Lemma task_list_entries_kept a w entry :
  In entry (__TASKS (final (list_tasks a w))) -> In entry (__TASKS w).
Proof.
  unfold task_list, bind, lift, final.
  destruct (add_str a "/admin/list") as [ u | e ]; cbn -[_request]; [ | tauto ].
  destruct (request_frame u GET None w) as [Ht _]. unfold final in Ht.
  destruct (send u GET None w) as [[ r_data | e ] w1];
    cbn in *; rewrite <- Ht; [ | tauto ].
  unfold TASKS_get. destruct (hashable a); cbn; [ | tauto ].
  destruct (getitem r_data "tasks") as [ tasks | e ]; cbn; [ | tauto ].
  destruct (method_keys tasks) as [ ks | e ]; cbn; [ | tauto ].
  destruct (PyDict.lookup a (__TASKS w1)) as [ task_dict | ]; cbn; [ | tauto ].
  match goal with
  | |- context [ for_each task_dict ?body w1 ] =>
      assert (Hloop : forall p, In p (__TASKS (final (for_each task_dict body w1)))
                                -> In p (__TASKS w1))
  end.
  { apply (for_each_preserves
             (fun u v => forall p, In p (__TASKS v) -> In p (__TASKS u)));
      [ auto | auto | ].
    intros item w2. apply (prune_frame ks item w2). }
  unfold final in Hloop.
  destruct (for_each task_dict _ w1) as [[ x | e ] w2]; cbn in *; apply Hloop.
Qed.

(** C7: with no entry for the server in the registry, and an envelope of
    [/admin/list] that carries its [tasks] mapping, [task_list] returns
    an empty mapping, raises nothing and leaves the registry alone. *)
Theorem task_list_unknown_server endpoint w text d tasks :
  PyDict.lookup (VStr endpoint) (__TASKS w) = None ->
  HttpRequest_request (sent w) (mkRequest (endpoint ++ "/admin/list") GET None)
    = Return text ->
  load_json text = Return (VDict d) ->
  passes d = true ->
  PyDict.lookup (VStr "tasks") d = Some (VDict tasks) ->
  result (list_tasks (VStr endpoint) w) = Return [] /\
  __TASKS (final (list_tasks (VStr endpoint) w)) = __TASKS w.
Proof.
  intros Hnone HT HL Hp Htasks. unfold task_list, bind, lift, add_str.
  rewrite (request_decoded _ _ _ _ _ _ HT HL), Hp. cbn.
  rewrite Htasks, Hnone. cbn. split; reflexivity.
Qed.

(** C10: [task_list] always sends the [/admin/list] request, and it
    reads [r_data['tasks']] before it looks at what the registry holds
    for the server: with no entry for the server, an envelope without
    [tasks] raises [KeyError('tasks')] where the empty mapping would
    have been returned. *)
Theorem task_list_reads_tasks_first endpoint w :
  sent (final (list_tasks (VStr endpoint) w))
    = (sent w ++ [mkRequest (endpoint ++ "/admin/list") GET None])%list /\
  forall text d,
    PyDict.lookup (VStr endpoint) (__TASKS w) = None ->
    HttpRequest_request (sent w) (mkRequest (endpoint ++ "/admin/list") GET None)
      = Return text ->
    load_json text = Return (VDict d) ->
    passes d = true ->
    PyDict.lookup (VStr "tasks") d = None ->
    result (list_tasks (VStr endpoint) w) = Raise (KeyError (VStr "tasks")) /\
    result (list_tasks (VStr endpoint) w) <> Return [].
Proof.
  split; [ apply task_list_sent | ].
  intros text d Hnone HT HL Hp Htasks. unfold task_list, bind, lift, add_str.
  rewrite (request_decoded _ _ _ _ _ _ HT HL), Hp. cbn.
  rewrite Htasks. cbn. split; [ reflexivity | discriminate ].
Qed.

(** ** Flushing and deleting *)

Local Notation "'flush'" := (task_flush HttpRequest_request load_json).
Local Notation "'delete'" := (task_delete HttpRequest_request load_json).

(** C5, as the code has it: [task_flush] sends one GET request to
    [/admin/flush] and leaves the registry alone; it has no [return], so
    the envelope is dropped and the caller gets [None], or the exception
    of the request. *)
Theorem task_flush_returns_None endpoint w :
  final (flush (VStr endpoint) w)
    = final (send (endpoint ++ "/admin/flush") GET None w) /\
  sent (final (flush (VStr endpoint) w))
    = (sent w ++ [mkRequest (endpoint ++ "/admin/flush") GET None])%list /\
  __TASKS (final (flush (VStr endpoint) w)) = __TASKS w /\
  result (flush (VStr endpoint) w)
    = match result (send (endpoint ++ "/admin/flush") GET None w) with
      | Return _ => Return VNone
      | Raise e => Raise e
      end.
Proof.
  destruct (request_frame (endpoint ++ "/admin/flush") GET None w) as [Ht Hs].
  unfold task_flush, bind, lift, add_str, ret, result, final in *.
  cbn -[_request].
  destruct (send (endpoint ++ "/admin/flush") GET None w) as [[ env | e ] w1];
    cbn in *; repeat split; assumption.
Qed.

(** No request changes the registry, whatever the handle holds. *)
Lemma task_delete_frame self w : __TASKS (final (delete self w)) = __TASKS w.
Proof.
  unfold task_delete, __task_request, __request, bind, lift, str_add, add_str, final.
  destruct (id self); cbn; try reflexivity.
  destruct (api_url self); cbn; try reflexivity.
  apply request_frame.
Qed.

(** C8: [task_delete] is the GET request to [/task/{id}/delete]: that
    one call is sent, the envelope that the server answered is what the
    caller gets back, unchanged (and a refusal is the [RequestException]
    of [_request]), and the registry after it is the registry before
    it. *)
Theorem task_delete_keeps_registry tid endpoint target w :
  delete (mkTask (VStr tid) (VStr endpoint) target) w
    = send (endpoint ++ "/task/" ++ tid ++ "/delete") GET None w /\
  sent (final (delete (mkTask (VStr tid) (VStr endpoint) target) w))
    = (sent w ++ [mkRequest (endpoint ++ "/task/" ++ tid ++ "/delete") GET None])%list /\
  (forall self, __TASKS (final (delete self w)) = __TASKS w) /\
  (forall text d,
      HttpRequest_request (sent w)
        (mkRequest (endpoint ++ "/task/" ++ tid ++ "/delete") GET None) = Return text ->
      load_json text = Return (VDict d) ->
      (passes d = true ->
       result (delete (mkTask (VStr tid) (VStr endpoint) target) w)
         = Return (VDict d)) /\
      (passes d = false ->
       result (delete (mkTask (VStr tid) (VStr endpoint) target) w)
         = Raise (RequestException
                    ("Request to " ++ (endpoint ++ "/task/" ++ tid ++ "/delete")
                       ++ " failed")))).
Proof.
  assert (E : delete (mkTask (VStr tid) (VStr endpoint) target) w
              = send (endpoint ++ "/task/" ++ tid ++ "/delete") GET None w).
  { unfold task_delete, __task_request, __request, bind, lift, str_add, add_str.
    cbn [id api_url].
    replace (("/task/" ++ tid) ++ "/") with ("/task/" ++ tid ++ "/")
      by (symmetry; apply append_assoc).
    rewrite !append_assoc. reflexivity. }
  split; [ exact E | ]. split; [ | split ].
  - rewrite E. apply request_frame.
  - intros self. apply task_delete_frame.
  - intros text d HT HL. rewrite E, (request_decoded _ _ _ _ _ _ HT HL).
    split; intros Hp; rewrite Hp; reflexivity.
Qed.

End Properties.

(** ** Reconciliation: what [task_list] removes *)

(** C1, at the example of the specification: [server] holds [abc123]
    and the stale [zzz999], and the server lists [abc123] only.  The
    loop calls [pop] on the registry itself with the task id, so it
    raises [KeyError('zzz999')]: the pass does not complete, the registry
    is what it was, and [zzz999] is still registered under [server]. *)
Theorem task_list_keeps_stale_task :
  result (task_list healthy codec (VStr server) stale_world)
    = Raise (KeyError (VStr "zzz999")) /\
  __TASKS (final (task_list healthy codec (VStr server) stale_world))
    = __TASKS stale_world /\
  registered (__TASKS (final (task_list healthy codec (VStr server) stale_world)))
    (VStr server) (VStr "zzz999") = Some task_zzz /\
  key_in (VStr "zzz999") [VStr "abc123"] = false.
Proof.
  vm_compute. repeat split.
Qed.

(** When another server is registered under the text of the stale id,
    the pass completes: that server's entry is gone, and the stale task
    is still there. *)
Lemma task_list_pops_other_server :
  result (task_list healthy codec (VStr server) colliding_world)
    = Return (__TASKS stale_world) /\
  registered (__TASKS (final (task_list healthy codec (VStr server) colliding_world)))
    (VStr server) (VStr "zzz999") = Some task_zzz /\
  PyDict.lookup (VStr "zzz999") (__TASKS colliding_world) <> None /\
  PyDict.lookup (VStr "zzz999")
    (__TASKS (final (task_list healthy codec (VStr server) colliding_world))) = None.
Proof.
  vm_compute. repeat split. discriminate.
Qed.

(** ** The envelope of a flush *)

(** C5 as stated fails: the request of a flush returns an envelope that
    [task_flush] does not return. *)
Lemma task_flush_drops_envelope :
  exists T L endpoint w env,
    result (_request T L (endpoint ++ "/admin/flush") GET None w) = Return env /\
    result (task_flush T L (VStr endpoint) w) <> Return env.
Proof.
  exists healthy, codec, server, empty_world, body_ok.
  split; [ reflexivity | vm_compute; discriminate ].
Qed.

(** ** Runs of the examples *)

Lemma request_rejected_raises_run :
  refusing [] (mkRequest (server ++ "/task/new") GET None)
    = Return "{'success': false, 'message': 'Invalid task ID'}" /\
  codec "{'success': false, 'message': 'Invalid task ID'}" = Return body_refused /\
  result (_request refusing codec (server ++ "/task/new") GET None empty_world)
    = Raise (RequestException "Request to http://127.0.0.1:8775/task/new failed").
Proof.
  split; [ reflexivity | split; [ reflexivity | ] ].
  exact (proj1 (proj1 (request_rejected_raises refusing codec
                         (server ++ "/task/new") GET None empty_world
                         _ body_refused eq_refl eq_refl)
                  _ eq_refl eq_refl)).
Defined.

Lemma request_passes_body_run :
  result (_request healthy codec (server ++ "/task/new") GET None empty_world)
    = Return body_new /\
  result (_request healthy codec (server ++ "/admin/flush") GET None empty_world)
    = Return body_ok.
Proof.
  split.
  - exact (request_passes_body healthy codec (server ++ "/task/new") GET None
             empty_world _ _ eq_refl eq_refl (or_introl eq_refl)).
  - exact (request_passes_body healthy codec (server ++ "/admin/flush") GET None
             empty_world _ _ eq_refl eq_refl
             (or_intror (ex_intro _ (VBool true) (conj eq_refl eq_refl)))).
Defined.

Lemma request_falsy_success_raises_run :
  Forall
    (fun s =>
       result (_request (always "reply") (reading (VDict [(VStr "success", s)]))
                 "http://127.0.0.1:8775/admin/list" GET None empty_world)
         = Raise (RequestException
                    "Request to http://127.0.0.1:8775/admin/list failed"))
    [VInt 0; VStr ""; VList []; VDict []; VFloat (S754_zero false)].
Proof.
  pose (run := fun s =>
          request_falsy_success_raises (always "reply")
            (reading (VDict [(VStr "success", s)]))
            "http://127.0.0.1:8775/admin/list" GET None empty_world
            "reply" [(VStr "success", s)] s eq_refl eq_refl eq_refl).
  apply Forall_cons; [ exact (run (VInt 0) eq_refl eq_refl) | ].
  apply Forall_cons; [ exact (run (VStr "") eq_refl eq_refl) | ].
  apply Forall_cons; [ exact (run (VList []) eq_refl eq_refl) | ].
  apply Forall_cons; [ exact (run (VDict []) eq_refl eq_refl) | ].
  apply Forall_cons; [ exact (run (VFloat (S754_zero false)) eq_refl eq_refl) | ].
  apply Forall_nil.
Defined.

Lemma task_new_registers_run :
  exists handle,
    result (task_new healthy codec (VStr server) (VStr "http://target/?id=1") empty_world)
      = Return handle /\
    id handle = VStr "abc123" /\
    api_url handle = VStr server /\
    registered
      (__TASKS (final (task_new healthy codec (VStr server)
                       (VStr "http://target/?id=1") empty_world)))
      (VStr server) (VStr "abc123") = Some handle.
Proof.
  exact (task_new_registers healthy codec server (VStr "http://target/?id=1")
           empty_world _ _ (VStr "abc123") eq_refl eq_refl eq_refl eq_refl eq_refl).
Defined.

Lemma task_new_missing_taskid_run :
  passes [(VStr "success", VBool true)] = true /\
  result (task_new terse codec (VStr server) VNone empty_world)
    = Raise (KeyError (VStr "taskid")) /\
  __TASKS (final (task_new terse codec (VStr server) VNone empty_world)) = [].
Proof.
  split; [ reflexivity | ].
  exact (task_new_missing_taskid terse codec server VNone empty_world _ _
           eq_refl eq_refl eq_refl eq_refl).
Defined.

Lemma task_list_unknown_server_run :
  PyDict.lookup (VStr server) (__TASKS empty_world) = None /\
  result (task_list healthy codec (VStr server) empty_world) = Return [] /\
  __TASKS (final (task_list healthy codec (VStr server) empty_world)) = [].
Proof.
  split; [ reflexivity | ].
  exact (task_list_unknown_server healthy codec server empty_world _ _ _
           eq_refl eq_refl eq_refl eq_refl eq_refl).
Defined.

Lemma task_list_reads_tasks_first_run :
  PyDict.lookup (VStr server) (__TASKS empty_world) = None /\
  result (task_list terse codec (VStr server) empty_world)
    = Raise (KeyError (VStr "tasks")) /\
  result (task_list terse codec (VStr server) empty_world) <> Return [].
Proof.
  split; [ reflexivity | ].
  exact (proj2 (task_list_reads_tasks_first terse codec server empty_world)
           _ _ eq_refl eq_refl eq_refl eq_refl eq_refl).
Defined.

Lemma task_list_entries_kept_run :
  In (VStr server, [(VStr "abc123", task_abc); (VStr "zzz999", task_zzz)])
     (__TASKS (final (task_list healthy codec (VStr server) colliding_world))) /\
  In (VStr server, [(VStr "abc123", task_abc); (VStr "zzz999", task_zzz)])
     (__TASKS colliding_world).
Proof.
  assert (H : In (VStr server, [(VStr "abc123", task_abc); (VStr "zzz999", task_zzz)])
                 (__TASKS (final (task_list healthy codec (VStr server) colliding_world))))
    by (left; reflexivity).
  split; [ exact H | ].
  exact (task_list_entries_kept healthy codec (VStr server) colliding_world _ H).
Defined.

(** * Further properties of the class *)

(** ** Keys that are strings *)

Lemma key_eqb_str_l (s : string) (k : value) :
  key_eqb (VStr s) k = true -> k = VStr s.
Proof.
  destruct k as [ | b | z | f | t | l | d ]; cbn; try discriminate.
  intros H. apply String.eqb_eq in H. now subst.
Qed.

Lemma key_eqb_str_r (s : string) (k : value) :
  key_eqb k (VStr s) = true -> k = VStr s.
Proof.
  destruct k as [ | b | z | f | t | l | d ]; cbn; try discriminate.
  - destruct f; discriminate.
  - intros H. apply String.eqb_eq in H. now subst.
Qed.

Lemma key_eqb_str_neq (s t : string) :
  s <> t -> key_eqb (VStr s) (VStr t) = false.
Proof.
  intros H. cbn. now apply String.eqb_neq.
Qed.

(** Storing at one string key leaves what is found at another. *)
Lemma lookup_store_other {V} (s t : string) (v : V) (d : PyDict.t V) :
  s <> t ->
  PyDict.lookup (VStr t) (PyDict.store (VStr s) v d) = PyDict.lookup (VStr t) d.
Proof.
  intros Hne. induction d as [ | [k' v'] rest IH ]; cbn -[key_eqb].
  - now rewrite key_eqb_str_neq.
  - destruct (key_eqb k' (VStr s)) eqn:E; cbn -[key_eqb].
    + apply key_eqb_str_r in E. subst k'.
      now rewrite key_eqb_str_neq.
    + destruct (key_eqb k' (VStr t)); [ reflexivity | exact IH ].
Qed.

(** Storing twice at a key keeps the keys of the first store. *)
Lemma keys_store_twice {V} (k : value) (v1 v2 : V) (d : PyDict.t V) :
  key_eqb k k = true ->
  PyDict.keys (PyDict.store k v2 (PyDict.store k v1 d))
    = PyDict.keys (PyDict.store k v1 d).
Proof.
  intros Hk. unfold PyDict.keys. induction d as [ | [k' v'] rest IH ]; cbn.
  - now rewrite Hk.
  - destruct (key_eqb k' k) eqn:E; cbn; rewrite E; cbn; [ reflexivity | ].
    now rewrite IH.
Qed.

(** The public methods of a handle; [options] is the argument of
    [option_get] and [option_set]. *)
Definition instance_methods
    (T : list Request -> Request -> outcome string) (L : string -> outcome value)
    (options : value) : list (SqlmapTask -> Py value) :=
  [ task_delete T L;
    option_list T L;
    (fun self => option_get T L self options);
    (fun self => option_set T L self options);
    scan_start T L; scan_stop T L; scan_kill T L;
    scan_status T L; scan_data T L; scan_log T L ].

Section MoreProperties.

Variable HttpRequest_request : list Request -> Request -> outcome string.
Variable load_json : string -> outcome value.

Local Notation "'send'" := (_request HttpRequest_request load_json).

(** ** The request helper: log and errors *)

(** X2: every decoded body is written to the log before [success] is
    looked at: whatever the body is and whatever [_request] then does,
    the log grows by the [Log.info] record of the body first. *)
Theorem request_logs_decoded_body url rt js w text body :
  HttpRequest_request (sent w) (mkRequest url rt js) = Return text ->
  load_json text = Return body ->
  exists rest,
    journal (final (send url rt js w))
      = (journal w ++ Log_info ("Response data of " ++ url ++ ": ") body :: rest)%list.
Proof.
  intros HT HL. unfold _request, bind, http, lift, Log_write, final.
  rewrite HT, HL. cbn.
  destruct (method_get body (VStr "success")) as [ s | e ]; cbn.
  - destruct (is_None s); cbn.
    + exists []. reflexivity.
    + destruct (truthy s); cbn.
      * exists []. reflexivity.
      * eexists. rewrite <- app_assoc. reflexivity.
  - exists []. reflexivity.
Qed.

(** X3: a decoded body that is not a mapping (a JSON array, string,
    number or null) has no [get]: [_request] raises [AttributeError]
    after the request was sent, and returns nothing. *)
Theorem request_non_mapping_body url rt js w text body :
  HttpRequest_request (sent w) (mkRequest url rt js) = Return text ->
  load_json text = Return body ->
  (forall d, body <> VDict d) ->
  result (send url rt js w) = Raise (AttributeError "get") /\
  sent (final (send url rt js w)) = (sent w ++ [mkRequest url rt js])%list.
Proof.
  intros HT HL Hnd. split; [ | apply request_frame ].
  unfold _request, bind, http, lift, Log_write, result.
  rewrite HT, HL. cbn.
  destruct body; try reflexivity. now destruct (Hnd d).
Qed.

(** X4: an exception of the transport or of the decoder goes to the
    caller as it is; nothing is logged and the registry is not
    touched. *)
Theorem request_propagates_collaborator_errors url rt js w e :
  (HttpRequest_request (sent w) (mkRequest url rt js) = Raise e \/
   exists text,
     HttpRequest_request (sent w) (mkRequest url rt js) = Return text /\
     load_json text = Raise e) ->
  result (send url rt js w) = Raise e /\
  journal (final (send url rt js w)) = journal w /\
  __TASKS (final (send url rt js w)) = __TASKS w.
Proof.
  unfold _request, bind, http, lift, Log_write, result, final.
  intros [ HT | (text & HT & HL) ]; rewrite HT; cbn; [ | rewrite HL; cbn ];
    repeat split.
Qed.

(** X5: a [success] field that is present with the value [None] (a JSON
    null) counts as absent: the body is returned unchanged. *)
Theorem request_success_None_passes url rt js w text d :
  HttpRequest_request (sent w) (mkRequest url rt js) = Return text ->
  load_json text = Return (VDict d) ->
  PyDict.lookup (VStr "success") d = Some VNone ->
  result (send url rt js w) = Return (VDict d).
Proof.
  intros HT HL Hs. rewrite (request_decoded _ _ _ _ _ _ _ _ HT HL).
  unfold passes. now rewrite Hs.
Qed.

End MoreProperties.

(** ** The requests of a handle *)

Section HandleProperties.

Variable HttpRequest_request : list Request -> Request -> outcome string.
Variable load_json : string -> outcome value.

Local Notation "'send'" := (_request HttpRequest_request load_json).
Local Notation "'T'" := HttpRequest_request.
Local Notation "'L'" := load_json.

(** The URL that the three request builders reach. *)
Lemma builder_url (a kind tid action : string) :
  a ++ ((kind ++ tid) ++ "/") ++ action = a ++ kind ++ tid ++ "/" ++ action.
Proof.
  now rewrite !append_assoc.
Qed.

(** X6: for a handle whose [id] and [api_url] are strings, the option
    methods are single requests to [api_url/option/id/action]:
    [option_list] by GET without a body, [option_get] and [option_set]
    by POST with the argument as the body; each hands back what
    [_request] gives. *)
Theorem option_requests_route tid endpoint target options w :
  option_list T L (mkTask (VStr tid) (VStr endpoint) target) w
    = send (endpoint ++ "/option/" ++ tid ++ "/list") GET None w /\
  option_get T L (mkTask (VStr tid) (VStr endpoint) target) options w
    = send (endpoint ++ "/option/" ++ tid ++ "/get") POST (Some options) w /\
  option_set T L (mkTask (VStr tid) (VStr endpoint) target) options w
    = send (endpoint ++ "/option/" ++ tid ++ "/set") POST (Some options) w.
Proof.
  unfold option_list, option_get, option_set, __option_request, __request,
    bind, lift, str_add, add_str.
  cbn [id api_url]. rewrite !builder_url. repeat split.
Qed.

(** X7: for such a handle the scan methods are single requests to
    [api_url/scan/id/action]: [scan_start] by POST with the empty
    mapping as the body, the five others by GET without a body. *)
Theorem scan_requests_route tid endpoint target w :
  let self := mkTask (VStr tid) (VStr endpoint) target in
  scan_start T L self w
    = send (endpoint ++ "/scan/" ++ tid ++ "/start") POST (Some (VDict [])) w /\
  scan_stop T L self w
    = send (endpoint ++ "/scan/" ++ tid ++ "/stop") GET None w /\
  scan_kill T L self w
    = send (endpoint ++ "/scan/" ++ tid ++ "/kill") GET None w /\
  scan_status T L self w
    = send (endpoint ++ "/scan/" ++ tid ++ "/status") GET None w /\
  scan_data T L self w
    = send (endpoint ++ "/scan/" ++ tid ++ "/data") GET None w /\
  scan_log T L self w
    = send (endpoint ++ "/scan/" ++ tid ++ "/log") GET None w.
Proof.
  cbv zeta.
  unfold scan_start, scan_stop, scan_kill, scan_status, scan_data, scan_log,
    __scan_request, __request, bind, lift, str_add, add_str.
  cbn [id api_url]. rewrite !builder_url. repeat split.
Qed.

(** What [__request] leaves behind: the registry as it was, and at most
    one more call of the transport. *)
Definition quiet (w w' : World) : Prop :=
  __TASKS w' = __TASKS w /\
  (sent w' = sent w \/ exists rq, sent w' = (sent w ++ [rq])%list).

Lemma private_request_quiet self path rt js w :
  quiet w (final (__request T L self path rt js w)).
Proof.
  unfold __request, bind, lift, add_str, quiet, final.
  destruct (api_url self); cbn -[_request]; try (split; [ reflexivity | now left ]).
  destruct (request_frame T L (s ++ path) rt js w) as [Ht Hs].
  unfold final in *. split; [ exact Ht | right; eauto ].
Qed.

Lemma builder_quiet (prefix : string) self action rt js w :
  quiet w
    (final ((p <- lift (str_add prefix (id self)) ;;
             __request T L self ((p ++ "/") ++ action) rt js) w)).
Proof.
  unfold bind, lift, str_add.
  destruct (id self); cbn -[__request];
    try (split; [ reflexivity | now left ]).
  apply private_request_quiet.
Qed.

(** X8: no method of a handle touches the registry, whatever the handle
    holds and whatever comes of the request, and each calls the
    transport once at most. *)
Theorem handle_methods_keep_registry options :
  Forall
    (fun method =>
       forall self w,
         __TASKS (final (method self w)) = __TASKS w /\
         (sent (final (method self w)) = sent w \/
          exists rq, sent (final (method self w)) = (sent w ++ [rq])%list))
    (instance_methods T L options).
Proof.
  unfold instance_methods.
  repeat (apply Forall_cons; [ intros self w; apply builder_quiet | ]).
  apply Forall_nil.
Qed.

(** With an accepted envelope that carries [taskid], [task_new] is the
    constructor run after the request. *)
Lemma task_new_run endpoint target w text d taskid :
  HttpRequest_request (sent w) (mkRequest (endpoint ++ "/task/new") GET None)
    = Return text ->
  load_json text = Return (VDict d) ->
  passes d = true ->
  PyDict.lookup (VStr "taskid") d = Some taskid ->
  task_new T L (VStr endpoint) target w
    = __init__ taskid (VStr endpoint) target
        (answered w (mkRequest (endpoint ++ "/task/new") GET None) (VDict d)).
Proof.
  intros HT HL Hp Hid. unfold task_new, bind, lift, add_str.
  rewrite (request_decoded _ _ _ _ _ _ _ _ HT HL), Hp. cbn -[__init__].
  now rewrite Hid.
Qed.

(** A handle whose [id] is not a string cannot build a path. *)
Lemma builder_needs_str (prefix : string) self action rt js w :
  (forall s, id self <> VStr s) ->
  (p <- lift (str_add prefix (id self)) ;;
   __request T L self ((p ++ "/") ++ action) rt js) w
    = (Raise (TypeError "can only concatenate str to str"), w).
Proof.
  intros Hid. unfold bind, lift, str_add.
  destruct (id self) as [ | b | z | f | s | l | d ]; try reflexivity.
  now destruct (Hid s).
Qed.

(** X9: [task_new] takes any hashable [taskid] for the id of the handle,
    but a handle whose id is not a string (a JSON number, say) is of no
    use: every method raises [TypeError] when it builds its path, and
    nothing is sent or changed. *)
Theorem non_str_id_handle_is_unusable endpoint target w text d taskid options :
  HttpRequest_request (sent w) (mkRequest (endpoint ++ "/task/new") GET None)
    = Return text ->
  load_json text = Return (VDict d) ->
  passes d = true ->
  PyDict.lookup (VStr "taskid") d = Some taskid ->
  hashable taskid = true ->
  (forall s, taskid <> VStr s) ->
  exists handle,
    result (task_new T L (VStr endpoint) target w) = Return handle /\
    Forall
      (fun method =>
         forall w', method handle w'
                    = (Raise (TypeError "can only concatenate str to str"), w'))
      (instance_methods T L options).
Proof.
  intros HT HL Hp Hid Hh Hns. exists (mkTask taskid (VStr endpoint) target).
  split.
  - rewrite (task_new_run endpoint target w text d taskid HT HL Hp Hid).
    now apply init_registers.
  - unfold instance_methods.
    repeat (apply Forall_cons;
            [ intros w'; apply builder_needs_str; exact Hns | ]).
    apply Forall_nil.
Qed.

End HandleProperties.

(** ** The registry under [__init__] and [task_new] *)

Lemma keys_store_present {V} (k : value) (v v0 : V) (d : PyDict.t V) :
  PyDict.lookup k d = Some v0 ->
  PyDict.keys (PyDict.store k v d) = PyDict.keys d.
Proof.
  unfold PyDict.keys. induction d as [ | [k' v'] rest IH ]; cbn; [ discriminate | ].
  destruct (key_eqb k' k); cbn; [ reflexivity | ].
  intros H. now rewrite IH.
Qed.

(** The registry that [__init__] leaves, for hashable arguments. *)
Lemma init_registry task_id a target w :
  hashable a = true ->
  hashable task_id = true ->
  __TASKS (final (__init__ task_id a target w))
    = match PyDict.lookup a (__TASKS w) with
      | Some inner =>
          PyDict.store a (PyDict.store task_id (mkTask task_id a target) inner)
            (__TASKS w)
      | None =>
          PyDict.store a [(task_id, mkTask task_id a target)]
            (PyDict.store a [] (__TASKS w))
      end.
Proof.
  intros Ha Hk. unfold __init__, bind, TASKS_get, TASKS_setitem, TASKS_setitem2, ret, final.
  rewrite Ha.
  destruct (PyDict.lookup a (__TASKS w)) as [ inner | ] eqn:Hin; cbn.
  - rewrite Hin, Hk. reflexivity.
  - rewrite lookup_store_same by now apply key_eqb_refl.
    rewrite Hk. reflexivity.
Qed.

Section RegistryProperties.

Variable HttpRequest_request : list Request -> Request -> outcome string.
Variable load_json : string -> outcome value.

Local Notation "'send'" := (_request HttpRequest_request load_json).
Local Notation "'new'" := (task_new HttpRequest_request load_json).

(** X10: a [taskid] that cannot be a dictionary key (a JSON array or
    object) makes [task_new] raise [TypeError]; no handle is registered,
    but a server that was unknown is now in the registry with no task,
    because [__init__] creates the server's dictionary first. *)
Theorem task_new_unhashable_taskid endpoint target w text d taskid :
  HttpRequest_request (sent w) (mkRequest (endpoint ++ "/task/new") GET None)
    = Return text ->
  load_json text = Return (VDict d) ->
  passes d = true ->
  PyDict.lookup (VStr "taskid") d = Some taskid ->
  hashable taskid = false ->
  result (new (VStr endpoint) target w) = Raise (TypeError "unhashable type") /\
  (PyDict.lookup (VStr endpoint) (__TASKS w) = None ->
   PyDict.lookup (VStr endpoint) (__TASKS (final (new (VStr endpoint) target w)))
     = Some []) /\
  (PyDict.lookup (VStr endpoint) (__TASKS w) <> None ->
   __TASKS (final (new (VStr endpoint) target w)) = __TASKS w).
Proof.
  intros HT HL Hp Hid Hh.
  rewrite (task_new_run _ _ endpoint target w text d taskid HT HL Hp Hid).
  unfold __init__, bind, TASKS_get, TASKS_setitem, TASKS_setitem2, ret,
    result, final, answered.
  cbn [hashable __TASKS sent journal].
  destruct (PyDict.lookup (VStr endpoint) (__TASKS w)) as [ inner | ] eqn:Hin;
    cbn -[PyDict.lookup PyDict.store].
  - rewrite Hin, Hh. cbn.
    split; [ reflexivity | split; [ intros H; discriminate H | intros _; reflexivity ] ].
  - rewrite (lookup_store_same (VStr endpoint)) by (apply key_eqb_refl; reflexivity).
    rewrite Hh. cbn -[PyDict.lookup PyDict.store].
    split; [ reflexivity | split ].
    + intros _. apply lookup_store_same. apply key_eqb_refl. reflexivity.
    + intros H. now destruct H.
Qed.

(** X11: registering a new task disturbs no other one: after
    [task_new] put [tid] under [endpoint], every other pair of a server
    and a task id finds what it found before. *)
Theorem task_new_keeps_other_tasks endpoint target w text d tid server' tid' :
  HttpRequest_request (sent w) (mkRequest (endpoint ++ "/task/new") GET None)
    = Return text ->
  load_json text = Return (VDict d) ->
  passes d = true ->
  PyDict.lookup (VStr "taskid") d = Some (VStr tid) ->
  server' <> endpoint \/ tid' <> tid ->
  registered (__TASKS (final (new (VStr endpoint) target w))) (VStr server') (VStr tid')
    = registered (__TASKS w) (VStr server') (VStr tid').
Proof.
  intros HT HL Hp Hid Hother.
  rewrite (task_new_run _ _ endpoint target w text d (VStr tid) HT HL Hp Hid).
  rewrite init_registry by reflexivity.
  unfold answered, registered. cbn [__TASKS].
  destruct (String.string_dec server' endpoint) as [ -> | Hs ].
  - destruct Hother as [ H | Ht ]; [ now destruct H | ].
    destruct (PyDict.lookup (VStr endpoint) (__TASKS w)) as [ inner | ] eqn:Hin.
    + rewrite lookup_store_same by (apply key_eqb_refl; reflexivity).
      apply lookup_store_other. congruence.
    + rewrite lookup_store_same by (apply key_eqb_refl; reflexivity).
      cbn -[key_eqb]. rewrite key_eqb_str_neq by congruence. reflexivity.
  - destruct (PyDict.lookup (VStr endpoint) (__TASKS w)) as [ inner | ] eqn:Hin.
    + rewrite lookup_store_other by congruence. reflexivity.
    + rewrite !lookup_store_other by congruence. reflexivity.
Qed.

(** X12: when the server refuses [/task/new] (a falsy [success]),
    [task_new] raises the [RequestException] of [_request]; no handle is
    built and the registry stays as it was. *)
Theorem task_new_rejected_registers_nothing endpoint target w text d :
  HttpRequest_request (sent w) (mkRequest (endpoint ++ "/task/new") GET None)
    = Return text ->
  load_json text = Return (VDict d) ->
  passes d = false ->
  result (new (VStr endpoint) target w)
    = Raise (RequestException ("Request to " ++ endpoint ++ "/task/new" ++ " failed")) /\
  __TASKS (final (new (VStr endpoint) target w)) = __TASKS w.
Proof.
  intros HT HL Hp. unfold task_new, bind, lift, add_str.
  rewrite (request_decoded _ _ _ _ _ _ _ _ HT HL), Hp. cbn.
  unfold failure_of. rewrite append_assoc. split; reflexivity.
Qed.

(** X13: building a handle for an id that the server already has
    replaces the registered handle and adds no item: the registry keeps
    its servers, and the server its task ids, in the same order. *)
Theorem init_twice_replaces task_id a target1 target2 w :
  hashable a = true ->
  hashable task_id = true ->
  let w1 := final (__init__ task_id a target1 w) in
  let w2 := final (__init__ task_id a target2 w1) in
  registered (__TASKS w2) a task_id = Some (mkTask task_id a target2) /\
  PyDict.keys (__TASKS w2) = PyDict.keys (__TASKS w1) /\
  exists inner1 inner2,
    PyDict.lookup a (__TASKS w1) = Some inner1 /\
    PyDict.lookup a (__TASKS w2) = Some inner2 /\
    PyDict.keys inner2 = PyDict.keys inner1.
Proof.
  intros Ha Hk w1 w2.
  assert (Haa : key_eqb a a = true) by now apply key_eqb_refl.
  assert (Hkk : key_eqb task_id task_id = true) by now apply key_eqb_refl.
  assert (H1 : exists inner0,
             PyDict.lookup a (__TASKS w1)
               = Some (PyDict.store task_id (mkTask task_id a target1) inner0)).
  { subst w1. rewrite init_registry by assumption.
    destruct (PyDict.lookup a (__TASKS w)) as [ inner | ].
    - exists inner. now apply lookup_store_same.
    - exists []. now apply lookup_store_same. }
  destruct H1 as (inner0 & H1).
  assert (H2 : __TASKS w2
               = PyDict.store a
                   (PyDict.store task_id (mkTask task_id a target2)
                      (PyDict.store task_id (mkTask task_id a target1) inner0))
                   (__TASKS w1)).
  { subst w2. rewrite init_registry by assumption. now rewrite H1. }
  split; [ | split ].
  - rewrite H2. now apply registered_store.
  - rewrite H2. now apply keys_store_present with (v0 := PyDict.store task_id
                                                       (mkTask task_id a target1) inner0).
  - exists (PyDict.store task_id (mkTask task_id a target1) inner0).
    exists (PyDict.store task_id (mkTask task_id a target2)
              (PyDict.store task_id (mkTask task_id a target1) inner0)).
    split; [ exact H1 | ]. split.
    + rewrite H2. now apply lookup_store_same.
    + now apply keys_store_twice.
Qed.

End RegistryProperties.

(** ** The reconciliation loop *)

(** One turn of the loop of [task_list] over the keys [ks] that the
    server listed. *)
Definition prune (ks : list value) (item : value * SqlmapTask) : Py unit :=
  let task_id := fst item in
  present <- lift (contains ks task_id) ;;
  if negb present then (TASKS_pop task_id ;;; ret tt) else ret tt.

(** The task ids of [items] are all among [ks]. *)
Definition all_listed (ks : list value) (items : PyDict.t SqlmapTask) : Prop :=
  Forall (fun item => hashable (fst item) = true /\ key_in (fst item) ks = true) items.

Lemma loop_listed ks items w :
  all_listed ks items -> for_each items (prune ks) w = (Return tt, w).
Proof.
  induction 1 as [ | item rest [Hh Hin] _ IH ]; cbn; [ reflexivity | ].
  unfold bind at 1. unfold prune at 1. unfold bind, lift, contains.
  rewrite Hh, Hin. cbn -[for_each]. exact IH.
Qed.

Lemma loop_skips_listed ks pre rest w :
  all_listed ks pre ->
  for_each (pre ++ rest) (prune ks) w = for_each rest (prune ks) w.
Proof.
  induction 1 as [ | item pre' [Hh Hin] _ IH ]; cbn -[for_each]; [ reflexivity | ].
  cbn [for_each]. unfold bind at 1. unfold prune at 1. unfold bind, lift, contains.
  rewrite Hh, Hin. cbn -[for_each]. exact IH.
Qed.

Section ReconciliationProperties.

Variable HttpRequest_request : list Request -> Request -> outcome string.
Variable load_json : string -> outcome value.

Local Notation "'send'" := (_request HttpRequest_request load_json).
Local Notation "'list_tasks'" := (task_list HttpRequest_request load_json).

(** With an accepted envelope that carries the [tasks] mapping and a
    server that the registry knows, [task_list] is the loop run after the
    request, and then the registry. *)
Lemma task_list_run endpoint w text d tasks task_dict :
  HttpRequest_request (sent w) (mkRequest (endpoint ++ "/admin/list") GET None)
    = Return text ->
  load_json text = Return (VDict d) ->
  passes d = true ->
  PyDict.lookup (VStr "tasks") d = Some (VDict tasks) ->
  PyDict.lookup (VStr endpoint) (__TASKS w) = Some task_dict ->
  list_tasks (VStr endpoint) w
    = (for_each task_dict (prune (PyDict.keys tasks)) ;;;
       (fun w' => (Return (__TASKS w'), w')))
        (answered w (mkRequest (endpoint ++ "/admin/list") GET None) (VDict d)).
Proof.
  intros HT HL Hp Htasks Hknown. unfold task_list, bind at 1 2 3 4 5, lift, add_str.
  rewrite (request_decoded _ _ _ _ _ _ _ _ HT HL), Hp.
  cbn -[for_each bind]. rewrite Htasks, Hknown. reflexivity.
Qed.

(** X14: when every task id that the registry holds for the server is
    among the ids the server lists, the pass removes nothing: it returns
    the registry, all servers included, as it was. *)
Theorem task_list_nothing_stale endpoint w text d tasks task_dict :
  HttpRequest_request (sent w) (mkRequest (endpoint ++ "/admin/list") GET None)
    = Return text ->
  load_json text = Return (VDict d) ->
  passes d = true ->
  PyDict.lookup (VStr "tasks") d = Some (VDict tasks) ->
  PyDict.lookup (VStr endpoint) (__TASKS w) = Some task_dict ->
  all_listed (PyDict.keys tasks) task_dict ->
  result (list_tasks (VStr endpoint) w) = Return (__TASKS w) /\
  __TASKS (final (list_tasks (VStr endpoint) w)) = __TASKS w.
Proof.
  intros HT HL Hp Htasks Hknown Hall.
  rewrite (task_list_run endpoint w text d tasks task_dict HT HL Hp Htasks Hknown).
  unfold bind. rewrite (loop_listed _ _ _ Hall). split; reflexivity.
Qed.

(** X15: the first task id of the server that the server no longer
    lists is popped from the registry of servers: when no server goes
    by that id, the pass raises [KeyError] with the id and the registry
    is what it was, the stale task included. *)
Theorem task_list_first_stale_raises
    endpoint w text d tasks listed_before task_id task after :
  HttpRequest_request (sent w) (mkRequest (endpoint ++ "/admin/list") GET None)
    = Return text ->
  load_json text = Return (VDict d) ->
  passes d = true ->
  PyDict.lookup (VStr "tasks") d = Some (VDict tasks) ->
  PyDict.lookup (VStr endpoint) (__TASKS w)
    = Some (listed_before ++ (task_id, task) :: after)%list ->
  all_listed (PyDict.keys tasks) listed_before ->
  hashable task_id = true ->
  key_in task_id (PyDict.keys tasks) = false ->
  PyDict.lookup task_id (__TASKS w) = None ->
  result (list_tasks (VStr endpoint) w) = Raise (KeyError task_id) /\
  __TASKS (final (list_tasks (VStr endpoint) w)) = __TASKS w.
Proof.
  intros HT HL Hp Htasks Hknown Hall Hh Hstale Hfree.
  assert (E : list_tasks (VStr endpoint) w
              = (Raise (KeyError task_id),
                 answered w (mkRequest (endpoint ++ "/admin/list") GET None) (VDict d))).
  { rewrite (task_list_run endpoint w text d tasks _ HT HL Hp Htasks Hknown).
    unfold bind at 1. rewrite (loop_skips_listed _ _ _ _ Hall).
    cbn [for_each]. unfold bind at 1. unfold prune at 1.
    unfold bind, lift, contains, TASKS_pop, answered.
    cbn [fst __TASKS]. rewrite Hh, Hstale. cbn [negb __TASKS]. rewrite Hfree.
    reflexivity. }
  rewrite E. split; reflexivity.
Qed.

(** X16: when the server refuses [/admin/list] (a falsy [success]), the
    pass raises the [RequestException] of [_request] and removes
    nothing, whatever the registry holds. *)
Theorem task_list_rejected_keeps_registry endpoint w text d :
  HttpRequest_request (sent w) (mkRequest (endpoint ++ "/admin/list") GET None)
    = Return text ->
  load_json text = Return (VDict d) ->
  passes d = false ->
  result (list_tasks (VStr endpoint) w)
    = Raise (RequestException ("Request to " ++ endpoint ++ "/admin/list" ++ " failed")) /\
  __TASKS (final (list_tasks (VStr endpoint) w)) = __TASKS w.
Proof.
  intros HT HL Hp. unfold task_list, bind, lift, add_str.
  rewrite (request_decoded _ _ _ _ _ _ _ _ HT HL), Hp. cbn.
  unfold failure_of. rewrite append_assoc. split; reflexivity.
Qed.

(** X17: a [tasks] field that is not a mapping (a JSON array, say) has
    no [keys]: the pass raises [AttributeError] and removes nothing,
    whether the server is known to the registry or not. *)
Theorem task_list_tasks_not_mapping endpoint w text d tasks :
  HttpRequest_request (sent w) (mkRequest (endpoint ++ "/admin/list") GET None)
    = Return text ->
  load_json text = Return (VDict d) ->
  passes d = true ->
  PyDict.lookup (VStr "tasks") d = Some tasks ->
  (forall t, tasks <> VDict t) ->
  result (list_tasks (VStr endpoint) w) = Raise (AttributeError "keys") /\
  __TASKS (final (list_tasks (VStr endpoint) w)) = __TASKS w.
Proof.
  intros HT HL Hp Htasks Hnm. unfold task_list, bind, lift, add_str.
  rewrite (request_decoded _ _ _ _ _ _ _ _ HT HL), Hp. cbn.
  rewrite Htasks. cbn.
  destruct tasks as [ | b | z | f | s | l | t ]; try (split; reflexivity).
  now destruct (Hnm t).
Qed.

(** X18: for a server that the registry knows, what a pass returns is
    the registry of all servers as the pass left it, not the tasks of
    the server that was asked. *)
Theorem task_list_returns_live_registry endpoint w task_dict r :
  PyDict.lookup (VStr endpoint) (__TASKS w) = Some task_dict ->
  result (list_tasks (VStr endpoint) w) = Return r ->
  r = __TASKS (final (list_tasks (VStr endpoint) w)).
Proof.
  intros Hknown. unfold task_list, bind, lift, add_str, result, final.
  destruct (request_frame HttpRequest_request load_json
              (endpoint ++ "/admin/list") GET None w) as [Ht _].
  unfold final in Ht.
  destruct (send (endpoint ++ "/admin/list") GET None w) as [[ r_data | e ] w1];
    cbn in *; [ | discriminate ].
  rewrite Ht, Hknown.
  destruct (getitem r_data "tasks") as [ tasks | e ]; cbn; [ | discriminate ].
  destruct (method_keys tasks) as [ ks | e ]; cbn; [ | discriminate ].
  destruct (for_each task_dict _ w1) as [[ u | e ] w2]; cbn; [ | discriminate ].
  now intros [= <-].
Qed.

(** X19: an [api_url] that is not a string cannot be joined to a path:
    [task_list], [task_new] and [task_flush] raise the [TypeError] of
    [api_url + path] (a list says that it can only be concatenated to a
    list, the other types that [+] is unsupported) before anything is
    sent, logged or registered. *)
Theorem non_str_endpoint_sends_nothing a target w :
  (forall s, a <> VStr s) ->
  let message :=
    match a with
    | VList _ =>
        "can only concatenate list (not " ++ dquote ++ "str" ++ dquote ++ ") to list"
    | _ => "unsupported operand type(s) for +"
    end in
  task_list HttpRequest_request load_json a w = (Raise (TypeError message), w) /\
  task_new HttpRequest_request load_json a target w = (Raise (TypeError message), w) /\
  task_flush HttpRequest_request load_json a w = (Raise (TypeError message), w).
Proof.
  intros Hns. cbv zeta.
  unfold task_list, task_new, task_flush, bind, lift, add_str, add_str_error.
  destruct a as [ | b | z | f | s | l | d ]; try (repeat split; reflexivity).
  now destruct (Hns s).
Qed.

End ReconciliationProperties.

(** ** Runs of the further properties *)

Lemma request_logs_decoded_body_run :
  exists rest,
    journal (final (_request refusing codec (server ++ "/task/new") GET None empty_world))
      = ([] ++ Log_info ("Response data of " ++ (server ++ "/task/new") ++ ": ")
                 body_refused :: rest)%list.
Proof.
  exact (request_logs_decoded_body refusing codec (server ++ "/task/new") GET None
           empty_world _ body_refused eq_refl eq_refl).
Defined.

Lemma request_non_mapping_body_run :
  result (_request (always "[]") (reading (VList [])) (server ++ "/admin/list")
            GET None empty_world)
    = Raise (AttributeError "get") /\
  sent (final (_request (always "[]") (reading (VList [])) (server ++ "/admin/list")
                 GET None empty_world))
    = [mkRequest (server ++ "/admin/list") GET None].
Proof.
  apply (request_non_mapping_body (always "[]") (reading (VList []))
           (server ++ "/admin/list") GET None empty_world "[]" (VList []));
    [ reflexivity | reflexivity | intros d; discriminate ].
Defined.

Lemma request_propagates_collaborator_errors_run :
  (result (_request healthy codec (server ++ "/scan/abc123/start") POST
             (Some (VDict [])) empty_world)
     = Raise (Foreign "ConnectionError") /\
   journal (final (_request healthy codec (server ++ "/scan/abc123/start") POST
                     (Some (VDict [])) empty_world)) = [] /\
   __TASKS (final (_request healthy codec (server ++ "/scan/abc123/start") POST
                     (Some (VDict [])) empty_world)) = []) /\
  (result (_request (always "<html>") codec (server ++ "/admin/list") GET None
             stale_world)
     = Raise (Foreign "JSONDecodeError") /\
   journal (final (_request (always "<html>") codec (server ++ "/admin/list") GET None
                     stale_world)) = [] /\
   __TASKS (final (_request (always "<html>") codec (server ++ "/admin/list") GET None
                     stale_world)) = __TASKS stale_world).
Proof.
  split.
  - apply (request_propagates_collaborator_errors healthy codec
             (server ++ "/scan/abc123/start") POST (Some (VDict [])) empty_world).
    left. reflexivity.
  - apply (request_propagates_collaborator_errors (always "<html>") codec
             (server ++ "/admin/list") GET None stale_world).
    right. exists "<html>". split; reflexivity.
Defined.

Lemma request_success_None_passes_run :
  result (_request (always "null success")
            (reading (VDict [(VStr "success", VNone); (VStr "data", VList [])]))
            (server ++ "/scan/abc123/data") GET None empty_world)
    = Return (VDict [(VStr "success", VNone); (VStr "data", VList [])]).
Proof.
  exact (request_success_None_passes (always "null success") (reading _)
           (server ++ "/scan/abc123/data") GET None empty_world
           "null success" [(VStr "success", VNone); (VStr "data", VList [])]
           eq_refl eq_refl eq_refl).
Defined.

Lemma non_str_id_handle_is_unusable_run :
  exists handle,
    result (task_new (always "{'taskid': 7}") (reading (VDict [(VStr "taskid", VInt 7)]))
              (VStr server) VNone empty_world) = Return handle /\
    Forall
      (fun method =>
         forall w', method handle w'
                    = (Raise (TypeError "can only concatenate str to str"), w'))
      (instance_methods (always "{'taskid': 7}")
         (reading (VDict [(VStr "taskid", VInt 7)])) (VList [VStr "cookie"])).
Proof.
  apply (non_str_id_handle_is_unusable (always "{'taskid': 7}")
           (reading (VDict [(VStr "taskid", VInt 7)])) server VNone empty_world
           "{'taskid': 7}" [(VStr "taskid", VInt 7)] (VInt 7) (VList [VStr "cookie"]));
    try reflexivity.
  intros s; discriminate.
Defined.

Lemma task_new_unhashable_taskid_run :
  result (task_new (always "{'taskid': []}") (reading (VDict [(VStr "taskid", VList [])]))
            (VStr server) VNone empty_world)
    = Raise (TypeError "unhashable type") /\
  PyDict.lookup (VStr server)
    (__TASKS (final (task_new (always "{'taskid': []}")
                       (reading (VDict [(VStr "taskid", VList [])]))
                       (VStr server) VNone empty_world)))
    = Some [].
Proof.
  destruct (task_new_unhashable_taskid (always "{'taskid': []}")
              (reading (VDict [(VStr "taskid", VList [])])) server VNone empty_world
              "{'taskid': []}" [(VStr "taskid", VList [])] (VList [])
              eq_refl eq_refl eq_refl eq_refl eq_refl) as (Hr & Hnew & _).
  split; [ exact Hr | exact (Hnew eq_refl) ].
Defined.

Lemma task_new_keeps_other_tasks_run :
  registered
    (__TASKS (final (task_new healthy codec (VStr server) VNone stale_world)))
    (VStr server) (VStr "zzz999")
    = registered (__TASKS stale_world) (VStr server) (VStr "zzz999") /\
  registered (__TASKS stale_world) (VStr server) (VStr "zzz999") = Some task_zzz.
Proof.
  split; [ | reflexivity ].
  apply (task_new_keeps_other_tasks healthy codec server VNone stale_world
           "{'taskid': 'abc123'}" [(VStr "taskid", VStr "abc123")]
           "abc123" server "zzz999");
    try reflexivity.
  right. discriminate.
Defined.

Lemma task_new_rejected_registers_nothing_run :
  passes [(VStr "success", VBool false); (VStr "message", VStr "Invalid task ID")]
    = false /\
  result (task_new refusing codec (VStr server) VNone stale_world)
    = Raise (RequestException "Request to http://127.0.0.1:8775/task/new failed") /\
  __TASKS (final (task_new refusing codec (VStr server) VNone stale_world))
    = __TASKS stale_world.
Proof.
  split; [ reflexivity | ].
  exact (task_new_rejected_registers_nothing refusing codec server VNone stale_world
           _ _ eq_refl eq_refl eq_refl).
Defined.

Lemma init_twice_replaces_run :
  let w1 := final (__init__ (VStr "abc123") (VStr server) (VStr "http://a/") stale_world) in
  let w2 := final (__init__ (VStr "abc123") (VStr server) (VStr "http://b/") w1) in
  registered (__TASKS w2) (VStr server) (VStr "abc123")
    = Some (mkTask (VStr "abc123") (VStr server) (VStr "http://b/")) /\
  PyDict.keys (__TASKS w2) = PyDict.keys (__TASKS w1) /\
  exists inner1 inner2,
    PyDict.lookup (VStr server) (__TASKS w1) = Some inner1 /\
    PyDict.lookup (VStr server) (__TASKS w2) = Some inner2 /\
    PyDict.keys inner2 = PyDict.keys inner1.
Proof.
  exact (init_twice_replaces (VStr "abc123") (VStr server) (VStr "http://a/")
           (VStr "http://b/") stale_world eq_refl eq_refl).
Defined.

Lemma task_list_nothing_stale_run :
  result (task_list healthy codec (VStr server)
            (mkWorld [(VStr server, [(VStr "abc123", task_abc)])] [] []))
    = Return [(VStr server, [(VStr "abc123", task_abc)])] /\
  __TASKS (final (task_list healthy codec (VStr server)
                    (mkWorld [(VStr server, [(VStr "abc123", task_abc)])] [] [])))
    = [(VStr server, [(VStr "abc123", task_abc)])].
Proof.
  apply (task_list_nothing_stale healthy codec server
           (mkWorld [(VStr server, [(VStr "abc123", task_abc)])] [] [])
           "{'success': true, 'tasks': {'abc123': 'not running'}}"
           [(VStr "success", VBool true);
            (VStr "tasks", VDict [(VStr "abc123", VStr "not running")])]
           [(VStr "abc123", VStr "not running")] [(VStr "abc123", task_abc)]);
    try reflexivity.
  apply Forall_cons; [ split; reflexivity | apply Forall_nil ].
Defined.

Lemma task_list_first_stale_raises_run :
  result (task_list healthy codec (VStr server) stale_world)
    = Raise (KeyError (VStr "zzz999")) /\
  __TASKS (final (task_list healthy codec (VStr server) stale_world))
    = __TASKS stale_world.
Proof.
  apply (task_list_first_stale_raises healthy codec server stale_world
           "{'success': true, 'tasks': {'abc123': 'not running'}}"
           [(VStr "success", VBool true);
            (VStr "tasks", VDict [(VStr "abc123", VStr "not running")])]
           [(VStr "abc123", VStr "not running")]
           [(VStr "abc123", task_abc)] (VStr "zzz999") task_zzz []);
    try reflexivity.
  apply Forall_cons; [ split; reflexivity | apply Forall_nil ].
Defined.

Lemma task_list_rejected_keeps_registry_run :
  passes [(VStr "success", VInt 0)] = false /\
  result (task_list refusing codec (VStr server) stale_world)
    = Raise (RequestException "Request to http://127.0.0.1:8775/admin/list failed") /\
  __TASKS (final (task_list refusing codec (VStr server) stale_world))
    = __TASKS stale_world.
Proof.
  split; [ reflexivity | ].
  exact (task_list_rejected_keeps_registry refusing codec server stale_world
           _ _ eq_refl eq_refl eq_refl).
Defined.

Lemma task_list_tasks_not_mapping_run :
  result (task_list (always "{'tasks': []}") (reading (VDict [(VStr "tasks", VList [])]))
            (VStr server) stale_world)
    = Raise (AttributeError "keys") /\
  __TASKS (final (task_list (always "{'tasks': []}")
                    (reading (VDict [(VStr "tasks", VList [])]))
                    (VStr server) stale_world))
    = __TASKS stale_world.
Proof.
  apply (task_list_tasks_not_mapping (always "{'tasks': []}")
           (reading (VDict [(VStr "tasks", VList [])])) server stale_world
           "{'tasks': []}" [(VStr "tasks", VList [])] (VList []));
    try reflexivity.
  intros t; discriminate.
Defined.

Lemma task_list_returns_live_registry_run :
  __TASKS stale_world
    = __TASKS (final (task_list healthy codec (VStr server) colliding_world)).
Proof.
  exact (task_list_returns_live_registry healthy codec server colliding_world
           _ (__TASKS stale_world) eq_refl eq_refl).
Defined.

Lemma non_str_endpoint_sends_nothing_run :
  (task_list healthy codec VNone stale_world
     = (Raise (TypeError "unsupported operand type(s) for +"), stale_world) /\
   task_new healthy codec VNone VNone stale_world
     = (Raise (TypeError "unsupported operand type(s) for +"), stale_world) /\
   task_flush healthy codec VNone stale_world
     = (Raise (TypeError "unsupported operand type(s) for +"), stale_world)) /\
  (task_list healthy codec (VList [VStr server]) stale_world
     = (Raise (TypeError ("can only concatenate list (not " ++ dquote ++ "str"
                            ++ dquote ++ ") to list")), stale_world) /\
   task_new healthy codec (VList [VStr server]) VNone stale_world
     = (Raise (TypeError ("can only concatenate list (not " ++ dquote ++ "str"
                            ++ dquote ++ ") to list")), stale_world) /\
   task_flush healthy codec (VList [VStr server]) stale_world
     = (Raise (TypeError ("can only concatenate list (not " ++ dquote ++ "str"
                            ++ dquote ++ ") to list")), stale_world)).
Proof.
  split.
  - apply (non_str_endpoint_sends_nothing healthy codec VNone VNone stale_world).
    intros s; discriminate.
  - apply (non_str_endpoint_sends_nothing healthy codec (VList [VStr server]) VNone
             stale_world).
    intros s; discriminate.
Defined.

(** A deletion that the server accepts hands back the server's
    envelope. *)
Lemma task_delete_keeps_registry_run :
  passes [(VStr "success", VBool true)] = true /\
  result (task_delete healthy codec
            (mkTask (VStr "abc123") (VStr server) (VStr "http://target/?id=1"))
            stale_world)
    = Return (VDict [(VStr "success", VBool true)]).
Proof.
  split; [ reflexivity | ].
  apply (proj2 (proj2 (proj2
           (task_delete_keeps_registry healthy codec "abc123" server
              (VStr "http://target/?id=1") stale_world)))
           "{'success': true}" [(VStr "success", VBool true)]);
    reflexivity.
Defined.
